(** * critter/blocks/priors.py: prior blocks and their XML rendering

    A shallow embedding of the [Prior] model class, its validator, its
    rendering properties and its subclasses, together with the part of the
    Python runtime the module relies on ([str], [startswith], [join],
    [enumerate], indexing).  The collaborators that live in other modules
    ([Distribution], [RealParameter], [get_uuid]) are section variables. *)

From Stdlib Require Import String Ascii List ZArith Lia Bool.
From Stdlib Require Import PrimFloat FloatOps FloatAxioms SpecFloat DecimalString.
From Stdlib Require Import DecimalPos DecimalZ.
Import ListNotations.
Open Scope string_scope.

(** ** Python builtins *)

Module Py.

(** The values an unannotated [List] or [list] field may hold. *)
Inductive value : Type :=
| NoneV
| Bool (b : bool)
| Int (z : Z)
| Float (f : float)
| Str (s : string).

(** [str] on an [int]. *)
Definition str_int (z : Z) : string := NilZero.string_of_int (Z.to_int z).

(** *** [repr] on a [float]

    CPython prints the shortest decimal that reads back as the same
    binary64 value, in positional notation when the decimal point falls
    in [-4 < decpt <= 16] and in exponent notation otherwise. *)

Record decimal : Type := { dec_digits : Z; dec_exp : Z }.

Definition pow10 (k : Z) : Z := (10 ^ Z.max 0 k)%Z.

Section Shortest.
Open Scope Z_scope.
(** The value is [num / den]; every decimal in
    [(num - below) / den, (num + above) / den] rounds to it, the ends
    included when the mantissa is even. *)
Variables (num den below above : Z) (inclusive : bool).

Definition le_pow10 (k : Z) : bool :=
  den * pow10 k <=? num * pow10 (- k).

Fixpoint bump (fuel : nat) (k : Z) : Z :=
  match fuel with
  | O => k
  | S fuel' => if le_pow10 (k + 1) then bump fuel' (k + 1) else k
  end.

Definition log10_floor : Z :=
  bump 8 ((Z.log2 num - Z.log2 den - 1) * 30103 / 100000 - 1).

Definition try_digits (k n : Z) : option decimal :=
  let q := k - n + 1 in
  let up := pow10 (- q) in
  let B := den * pow10 q in
  let A := num * up in
  let lo := (num - below) * up in
  let hi := (num + above) * up in
  let ok d := if inclusive then (lo <=? d * B) && (d * B <=? hi)
              else (lo <? d * B) && (d * B <? hi) in
  let d0 := A / B in
  let d1 := d0 + 1 in
  match ok d0, ok d1 with
  | true, true =>
      Some {| dec_digits := match 2 * A ?= (d0 + d1) * B with
                            | Lt => d0
                            | Gt => d1
                            | Eq => if Z.even d0 then d0 else d1
                            end;
              dec_exp := q |}
  | true, false => Some {| dec_digits := d0; dec_exp := q |}
  | false, true => Some {| dec_digits := d1; dec_exp := q |}
  | false, false => None
  end.

Fixpoint search (fuel : nat) (k n : Z) : decimal :=
  match try_digits k n, fuel with
  | Some d, _ => d
  | None, S fuel' => search fuel' k (n + 1)
  | None, O =>
      {| dec_digits := num * pow10 (- (k - n + 1)) / (den * pow10 (k - n + 1));
         dec_exp := k - n + 1 |}
  end.
End Shortest.

Fixpoint strip_zeros (fuel : nat) (d : decimal) : decimal :=
  match fuel with
  | O => d
  | S fuel' =>
      if ((dec_digits d mod 10 =? 0) && negb (dec_digits d =? 0))%Z
      then strip_zeros fuel'
             {| dec_digits := (dec_digits d / 10)%Z; dec_exp := (dec_exp d + 1)%Z |}
      else d
  end.

(** Shortest round-trip digits of [m * 2^e], searched from one to
    seventeen significant digits. *)
Definition shortest_decimal (m : positive) (e : Z) : decimal :=
  let two_e := (2 ^ Z.max 0 e)%Z in
  let num := (4 * Zpos m * two_e)%Z in
  let den := (4 * 2 ^ Z.max 0 (- e))%Z in
  let above := (2 * two_e)%Z in
  let below := if ((Zpos m =? 2 ^ 52) && (-1074 <? e))%Z then two_e else above in
  let k := log10_floor num den in
  strip_zeros 17 (search num den below above (Z.even (Zpos m)) 16 k 1).

Fixpoint zeros (n : nat) : string :=
  match n with
  | O => ""
  | S n' => "0" ++ zeros n'
  end.

Definition format_exp (e : Z) : string :=
  (if (e <? 0)%Z then "-" else "+") ++
  (if (Z.abs e <? 10)%Z then "0" else "") ++ str_int (Z.abs e).

Definition format_repr (d : decimal) : string :=
  let digits := str_int (dec_digits d) in
  let len := Z.of_nat (String.length digits) in
  let decpt := (dec_exp d + len)%Z in
  if ((decpt <=? -4) || (16 <? decpt))%Z then
    String.substring 0 1 digits ++
    (if (1 <? len)%Z
     then "." ++ String.substring 1 (Z.to_nat (len - 1)) digits else "") ++
    "e" ++ format_exp (decpt - 1)
  else if (decpt <=? 0)%Z then
    "0." ++ zeros (Z.to_nat (- decpt)) ++ digits
  else if (decpt <? len)%Z then
    String.substring 0 (Z.to_nat decpt) digits ++ "." ++
    String.substring (Z.to_nat decpt) (Z.to_nat (len - decpt)) digits
  else
    digits ++ zeros (Z.to_nat (decpt - len)) ++ ".0".

Definition float_repr (f : float) : string :=
  match Prim2SF f with
  | S754_nan => "nan"
  | S754_infinity s => if s then "-inf" else "inf"
  | S754_zero s => if s then "-0.0" else "0.0"
  | S754_finite s m e =>
      (if s then "-" else "") ++ format_repr (shortest_decimal m e)
  end.

(** [str(v)], as [join] and f-strings apply it. *)
Definition str (v : value) : string :=
  match v with
  | NoneV => "None"
  | Bool b => if b then "True" else "False"
  | Int z => str_int z
  | Float f => float_repr f
  | Str s => s
  end.

(** [v != 0]: numeric comparison on numbers ([bool] is an [int]), and
    [True] for a value of any other type. *)
Definition ne_zero (v : value) : bool :=
  match v with
  | NoneV => true
  | Bool b => b
  | Int z => negb (z =? 0)%Z
  | Float f => negb (PrimFloat.eqb f 0%float)
  | Str _ => true
  end.

(** [sep.join(l)]. *)
Definition join (sep : string) (l : list string) : string := String.concat sep l.

(** [s.startswith(p)] and [s.startswith((p1, ..., pn))]. *)
Definition startswith (s p : string) : bool := String.prefix p s.
Definition startswith_any (s : string) (ps : list string) : bool :=
  existsb (startswith s) ps.

(** [enumerate(l)], counting from [start]. *)
Fixpoint enumerate_from {A : Type} (start : Z) (l : list A) : list (Z * A) :=
  match l with
  | [] => []
  | x :: l' => (start, x) :: enumerate_from (start + 1) l'
  end.
Definition enumerate {A : Type} (l : list A) : list (Z * A) := enumerate_from 0 l.

(** [needle in hay]. *)
Definition contains (needle hay : string) : bool :=
  match String.index 0 needle hay with
  | Some _ => true
  | None => false
  end.

End Py.

(** ** Exceptions *)

(** [TypeError] is what a call raises when its arguments do not fit the
    signature of the callee; its text is the interpreter's. *)
Inductive exn : Type :=
| ValidationError (errors model : Py.value)
| TypeError
| CritterError (msg : string)
| IndexError (msg : string).

Inductive result (A : Type) : Type :=
| Ok (a : A)
| Raise (e : exn).
Arguments Ok {A} a.
Arguments Raise {A} e.

Definition bind {A B : Type} (r : result A) (k : A -> result B) : result B :=
  match r with
  | Ok a => k a
  | Raise e => Raise e
  end.

Notation "x <- r ;; k" := (bind r (fun x => k))
  (at level 61, r at next level, right associativity).

(** [pydantic.ValidationError(...)]: the constructor is
    [__init__(self, errors, model)], so a call builds the exception from two
    positional arguments and raises [TypeError] on any other number. *)
Definition ValidationError_init (args : list Py.value) : result exn :=
  match args with
  | [errors; model] => Ok (ValidationError errors model)
  | _ => Raise TypeError
  end.

(** [raise e]: the exception [e] evaluates to is raised, and so is
    whatever evaluating [e] raises. *)
Definition raise {A : Type} (e : result exn) : result A :=
  match e with
  | Ok x => Raise x
  | Raise x => Raise x
  end.

(** [l[0]]. *)
Definition first {A : Type} (l : list A) : result A :=
  match l with
  | x :: _ => Ok x
  | [] => Raise (IndexError "list index out of range")
  end.

(** ** Markup *)

(** The double quote that delimits attribute values. *)
Definition dq : string := String "034"%char EmptyString.
Definition quoted (s : string) : string := dq ++ s ++ dq.
Definition nl : string := String "010"%char EmptyString.

(** A markup fragment seen as a tree node: tag, attributes in order, and
    either a body or nothing (a self-closing tag).  The renderers below
    build text directly, as the source does; the theorems relate that text
    to [render_fragment]. *)
Record fragment : Type :=
  { tag : string; attrs : list (string * string); body : option string }.

Definition render_attr (a : string * string) : string :=
  " " ++ fst a ++ "=" ++ quoted (snd a).

Definition render_fragment (e : fragment) : string :=
  match body e with
  | Some b =>
      "<" ++ tag e ++ String.concat "" (map render_attr (attrs e)) ++ ">" ++
      b ++ "</" ++ tag e ++ ">"
  | None => "<" ++ tag e ++ String.concat "" (map render_attr (attrs e)) ++ "/>"
  end.

(** ** The model classes *)

(** Keyword arguments of the [RealParameter(...)] call in [xml_param]. *)
Record RealParameter : Type :=
  { rp_id : string;
    rp_name : string;
    rp_value : Py.value;
    rp_spec : string;
    rp_dimension : Z;
    rp_lower : float;
    rp_upper : float }.

(** [Prior] and its subclasses. *)
Inductive prior_class : Type :=
| PriorBase
| Origin
| ReproductiveNumber
| SamplingProportion
| BecomeUninfectiousRate
| Rho
| RateMatrix
| SamplingProportionMTBD
| PopulationSize
| GroupSize
| ClockRate
| UCRE
| UCRLMean
| UCRLSD.

(** One entry of the error list a failed model construction reports: a
    required field that was not passed, or what a root validator raised
    (the [ValueError], [TypeError] or [AssertionError] that is caught and
    filed under the root location). *)
Inductive error_wrapper : Type :=
| Missing (loc : string)
| RootError (e : exn).

Definition sliced_prefixes : list string :=
  ["origin"; "rho"; "samplingProportion"; "reproductiveNumber"; "becomeUninfectious"].

(** The roles the rate-change-times renderer maps to a tag. *)
Definition rate_roles : list string :=
  ["rho"; "samplingProportion"; "reproductiveNumber"; "becomeUninfectious"].

Definition sliced_id_message : string :=
  "Cannot create a sliced prior that does not belong to a valid birth-death model prior. " ++
  "Sliced prior model identifier fields must start with one of: " ++
  "origin, rho, samplingProportion, reproductiveNumber, becomeUninfectious".

Definition rate_change_times_message : string :=
  "Rate change times (slices or intervals) are only defined for: " ++
  "rho and samplingProportion (<samplingRateChangeTimes/>), " ++
  "reproductiveNumber (<birthRateChangeTimes/>) and" ++
  "becomeUninfectious (<deathRateChangeTime/>) priors".

Section Priors.

(** [critter.blocks.distributions.Distribution] and its [xml] property. *)
Variable Distribution : Type.
Variable Distribution_xml : Distribution -> string.

(** [RealParameter(...).xml] of [critter.blocks.parameters]. *)
Variable RealParameter_xml : RealParameter -> result string.

(** [critter.utils.get_uuid(short)], drawing from a generator state. *)
Variable uuid_state : Type.
Variable get_uuid : bool -> uuid_state -> string * uuid_state.

(** An instance: its class and the values of the model fields. *)
Record Prior : Type :=
  { class_of : prior_class;
    id : string;
    distribution : list Distribution;
    initial : list Py.value;
    lower : float;
    upper : float;
    dimension : Z;
    sliced : bool;
    intervals : list Py.value;
    param_spec : string }.

(** *** Rendering properties of [Prior] *)

Definition Prior_xml (self : Prior) : result string :=
  if negb (sliced self) then
    d0 <- first (distribution self) ;;
    Ok ("<prior id=" ++ quoted (id self ++ "Prior") ++
        " name=" ++ quoted "distribution" ++
        " x=" ++ quoted ("@" ++ id self) ++ ">" ++
        Distribution_xml d0 ++ "</prior>")
  else
    Ok (fold_left
          (fun sliced_priors (p : Z * Distribution) =>
             let (i, distribution) := p in
             sliced_priors ++
             "<prior id=" ++ quoted (id self ++ "Slice" ++ Py.str_int (i + 1)) ++
             " name=" ++ quoted "distribution" ++
             " x=" ++ quoted ("@" ++ id self ++ Py.str_int (i + 1)) ++ ">" ++
             Distribution_xml distribution ++ "</prior>")
          (Py.enumerate (distribution self)) "").

(** The [initial] local of [xml_param]. *)
Definition xml_param_initial (self : Prior) : result Py.value :=
  if (1 <? length (initial self))%nat
  then Ok (Py.Str (Py.join " " (map Py.str (initial self))))
  else first (initial self).

(** The [param] local of [xml_param]. *)
Definition xml_param_param (self : Prior) : result RealParameter :=
  initial <- xml_param_initial self ;;
  Ok {| rp_id := id self;
        rp_name := "stateNode";
        rp_value := initial;
        rp_spec := param_spec self;
        rp_dimension := dimension self;
        rp_lower := lower self;
        rp_upper := upper self |}.

Definition xml_param (self : Prior) : result string :=
  param <- xml_param_param self ;;
  RealParameter_xml param.

Definition xml_logger (self : Prior) : string :=
  "<log idref=" ++ quoted (id self) ++ "/>".

Definition xml_slice_function (self : Prior) : string :=
  if negb (sliced self) then ""
  else
    fold_left
      (fun xml (p : Z * Distribution) =>
         let (i, _) := p in
         xml ++
         "<function spec=" ++ quoted "beast.core.util.Slice" ++
         " id=" ++ quoted (id self ++ Py.str_int (i + 1)) ++
         " arg=" ++ quoted ("@" ++ id self) ++
         " index=" ++ quoted (Py.str_int i) ++
         " count=" ++ quoted "1" ++ "/>" ++ nl)
      (Py.enumerate (distribution self)) "".

Definition xml_slice_rate_change_times (self : Prior) : result string :=
  if negb (sliced self) then Ok ""
  else
    let intervals := Py.join " " (map Py.str (intervals self)) in
    rate_change_times <-
      (if Py.startswith (id self) "samplingProportion" then Ok "samplingRateChangeTimes"
       else if Py.startswith (id self) "rho" then Ok "samplingRateChangeTimes"
       else if Py.startswith (id self) "reproductiveNumber" then Ok "birthRateChangeTimes"
       else if Py.startswith (id self) "becomeUninfectious" then Ok "deathRateChangeTimes"
       else Raise (CritterError rate_change_times_message)) ;;
    Ok ("<" ++ rate_change_times ++
        " spec=" ++ quoted "beast.core.parameter.RealParameter" ++
        " value=" ++ quoted intervals ++ "/>").

Definition xml_slice_logger (self : Prior) : string :=
  if negb (sliced self) then ""
  else
    fold_left
      (fun loggers (p : Z * Distribution) =>
         let (i, _) := p in
         loggers ++ "<log idref=" ++ quoted (id self ++ Py.str_int (i + 1)) ++ "/>" ++ nl)
      (Py.enumerate (distribution self)) "".

(** *** [SamplingProportionMTBD] *)

Definition get_include_string (self : Prior) : string :=
  let incl := map (fun v => if Py.ne_zero v then "true" else "false") (initial self) in
  Py.join " " incl.

Definition SamplingProportionMTBD_xml (self : Prior) : result string :=
  d0 <- first (distribution self) ;;
  Ok ("<distribution id=" ++ quoted (id self ++ "Prior") ++
      " spec=" ++ quoted "multitypetree.distributions.ExcludablePrior" ++
      " x=" ++ quoted ("@" ++ id self) ++ ">" ++
      "<xInclude id=" ++ quoted "samplingProportionXInclude" ++
      " spec=" ++ quoted "parameter.BooleanParameter" ++
      " dimension=" ++ quoted (Py.str_int (dimension self)) ++ ">" ++
      get_include_string self ++ "</xInclude>" ++
      Distribution_xml d0 ++ "</distribution>").

(** [self.xml], resolved on the class of the instance; [xml_prior] and
    [__str__] are aliases of it. *)
Definition xml (self : Prior) : result string :=
  match class_of self with
  | SamplingProportionMTBD => SamplingProportionMTBD_xml self
  | _ => Prior_xml self
  end.

Definition xml_prior (self : Prior) : result string := xml self.

(** *** Class definition and construction *)

(** What executing the module leaves behind: the default [id] of the
    base class, an f-string evaluated when the class body runs. *)
Record module_env : Type := { Prior_id : string }.

Definition import_module (g : uuid_state) : module_env * uuid_state :=
  let (u, g') := get_uuid true g in
  ({| Prior_id := "Prior." ++ u |}, g').

(** Field defaults, as each class body sets them. *)
Definition default_id (m : module_env) (c : prior_class) : string :=
  match c with
  | PriorBase => Prior_id m
  | Origin => "origin"
  | ReproductiveNumber => "reproductiveNumber"
  | SamplingProportion => "samplingProportion"
  | BecomeUninfectiousRate => "becomeUninfectiousRate"
  | Rho => "rho"
  | RateMatrix => "rateMatrix"
  | SamplingProportionMTBD => "samplingProportion"
  | PopulationSize => "bPopSizes"
  | GroupSize => "bGroupSizes"
  | ClockRate => "clockRate"
  | UCRE => "ucreMean"
  | UCRLMean => "ucrlMean"
  | UCRLSD => "ucrlSD"
  end.

Definition default_param_spec (c : prior_class) : string :=
  match c with
  | GroupSize => "parameter.IntegerParameter"
  | _ => "parameter.RealParameter"
  end.

(** Keyword arguments of a constructor call; [None] is an argument the
    caller did not pass. *)
Record kwargs : Type :=
  { kw_id : option string;
    kw_distribution : option (list Distribution);
    kw_initial : option (list Py.value);
    kw_lower : option float;
    kw_upper : option float;
    kw_dimension : option Z;
    kw_sliced : option bool;
    kw_intervals : option (list Py.value);
    kw_param_spec : option string }.

(** The [fields] dictionary handed to the root validator: a field with a
    default always has a value, a required field only when it was passed. *)
Record fields : Type :=
  { f_id : string;
    f_distribution : option (list Distribution);
    f_initial : option (list Py.value);
    f_lower : float;
    f_upper : float;
    f_dimension : Z;
    f_sliced : bool;
    f_intervals : list Py.value;
    f_param_spec : string }.

Definition validate_sliced_id (fields_ : fields) : result fields :=
  if f_sliced fields_ && negb (Py.startswith_any (f_id fields_) sliced_prefixes)
  then raise (ValidationError_init [Py.Str sliced_id_message])
  else Ok fields_.

Definition or_default {A : Type} (o : option A) (d : A) : A :=
  match o with
  | Some a => a
  | None => d
  end.

Definition field_values (m : module_env) (c : prior_class) (kw : kwargs) : fields :=
  {| f_id := or_default (kw_id kw) (default_id m c);
     f_distribution := kw_distribution kw;
     f_initial := kw_initial kw;
     f_lower := or_default (kw_lower kw) neg_infinity;
     f_upper := or_default (kw_upper kw) infinity;
     f_dimension := or_default (kw_dimension kw) 1%Z;
     f_sliced := or_default (kw_sliced kw) false;
     f_intervals := or_default (kw_intervals kw) [];
     f_param_spec := or_default (kw_param_spec kw) (default_param_spec c) |}.

Definition missing {A : Type} (loc : string) (o : option A) : list error_wrapper :=
  match o with
  | Some _ => []
  | None => [Missing loc]
  end.

Definition root_errors {A : Type} (r : result A) : list error_wrapper :=
  match r with
  | Ok _ => []
  | Raise e => [RootError e]
  end.

(** Calling the class [c] with keyword arguments [kw]: the fields take the passed value or the class default,
    the root validator runs on them, and the instance exists only when
    no error was collected. *)
Definition new (m : module_env) (c : prior_class) (kw : kwargs)
  : list error_wrapper + Prior :=
  let values := field_values m c kw in
  match f_distribution values, f_initial values, validate_sliced_id values with
  | Some d, Some i, Ok v =>
      inr {| class_of := c;
             id := f_id v;
             distribution := d;
             initial := i;
             lower := f_lower v;
             upper := f_upper v;
             dimension := f_dimension v;
             sliced := f_sliced v;
             intervals := f_intervals v;
             param_spec := f_param_spec v |}
  | _, _, _ =>
      inl (missing "distribution" (f_distribution values) ++
           missing "initial" (f_initial values) ++
           root_errors (validate_sliced_id values))%list
  end.

End Priors.

Arguments Build_Prior {Distribution}.
Arguments class_of {Distribution} _.
Arguments id {Distribution} _.
Arguments distribution {Distribution} _.
Arguments initial {Distribution} _.
Arguments lower {Distribution} _.
Arguments upper {Distribution} _.
Arguments dimension {Distribution} _.
Arguments sliced {Distribution} _.
Arguments intervals {Distribution} _.
Arguments param_spec {Distribution} _.
Arguments Prior_xml {Distribution} Distribution_xml self.
Arguments xml_param_initial {Distribution} self.
Arguments xml_param_param {Distribution} self.
Arguments xml_param {Distribution} RealParameter_xml self.
Arguments xml_logger {Distribution} self.
Arguments xml_slice_function {Distribution} self.
Arguments xml_slice_rate_change_times {Distribution} self.
Arguments xml_slice_logger {Distribution} self.
Arguments get_include_string {Distribution} self.
Arguments SamplingProportionMTBD_xml {Distribution} Distribution_xml self.
Arguments xml {Distribution} Distribution_xml self.
Arguments xml_prior {Distribution} Distribution_xml self.
Arguments import_module {uuid_state} get_uuid g.
Arguments Build_kwargs {Distribution}.
Arguments kw_id {Distribution} _.
Arguments kw_distribution {Distribution} _.
Arguments kw_initial {Distribution} _.
Arguments kw_lower {Distribution} _.
Arguments kw_upper {Distribution} _.
Arguments kw_dimension {Distribution} _.
Arguments kw_sliced {Distribution} _.
Arguments kw_intervals {Distribution} _.
Arguments kw_param_spec {Distribution} _.
Arguments Build_fields {Distribution}.
Arguments f_id {Distribution} _.
Arguments f_distribution {Distribution} _.
Arguments f_initial {Distribution} _.
Arguments f_lower {Distribution} _.
Arguments f_upper {Distribution} _.
Arguments f_dimension {Distribution} _.
Arguments f_sliced {Distribution} _.
Arguments f_intervals {Distribution} _.
Arguments f_param_spec {Distribution} _.
Arguments validate_sliced_id {Distribution} fields_.
Arguments field_values {Distribution} m c kw.
Arguments new {Distribution} m c kw.

(** ** The shapes the renderers are specified to produce *)

(** [<prior id=... name="distribution" x=...>body</prior>]. *)
Definition prior_fragment (ident target body_ : string) : fragment :=
  {| tag := "prior";
     attrs := [("id", ident); ("name", "distribution"); ("x", target)];
     body := Some body_ |}.

(** The k-th fragment of a sliced prior, k counted from 1. *)
Definition slice_fragment (id_ : string) (k : nat) (rendering : string) : fragment :=
  prior_fragment (id_ ++ "Slice" ++ Py.str_int (Z.of_nat k))
                 ("@" ++ id_ ++ Py.str_int (Z.of_nat k)) rendering.

(** The fragments of a sliced prior, one per distribution with its index. *)
Definition sliced_fragments {Distribution : Type}
  (Distribution_xml : Distribution -> string) (self : Prior Distribution) : list fragment :=
  map (fun p : Z * Distribution =>
         prior_fragment (id self ++ "Slice" ++ Py.str_int (fst p + 1))
                        ("@" ++ id self ++ Py.str_int (fst p + 1))
                        (Distribution_xml (snd p)))
      (Py.enumerate (distribution self)).

(** [<tag spec="beast.core.parameter.RealParameter" value=.../>]. *)
Definition rate_change_times_fragment (tag_ value_ : string) : fragment :=
  {| tag := tag_;
     attrs := [("spec", "beast.core.parameter.RealParameter"); ("value", value_)];
     body := None |}.

(** The inclusion mask parameter of the excludable prior. *)
Definition mask_fragment (dimension_ mask : string) : fragment :=
  {| tag := "xInclude";
     attrs := [("id", "samplingProportionXInclude");
               ("spec", "parameter.BooleanParameter");
               ("dimension", dimension_)];
     body := Some mask |}.

(** The excludable prior: the mask followed by the distribution. *)
Definition excludable_prior_fragment (id_ dimension_ mask rendering : string) : fragment :=
  {| tag := "distribution";
     attrs := [("id", id_ ++ "Prior");
               ("spec", "multitypetree.distributions.ExcludablePrior");
               ("x", "@" ++ id_)];
     body := Some (render_fragment (mask_fragment dimension_ mask) ++ rendering) |}.

(** A value that is exactly zero: the integer 0, [False] (an [int] in
    Python), or a float zero of either sign. *)
Definition exactly_zero (v : Py.value) : Prop :=
  match v with
  | Py.Int z => z = 0%Z
  | Py.Bool b => b = false
  | Py.Float f => exists s, Prim2SF f = S754_zero s
  | _ => False
  end.

(** The inclusion mask, one entry per initial value. *)
Definition mask_entries {Distribution : Type} (self : Prior Distribution) : list string :=
  map (fun v => if Py.ne_zero v then "true" else "false") (initial self).

(** ** Concrete collaborators, for evaluating the model *)

Module Demo.

(** A distribution that is its own rendering. *)
Definition Distribution : Type := string.
Definition Distribution_xml (d : Distribution) : string := d.

(** A parameter adapter that prints the value it is given. *)
Definition RealParameter_xml (p : RealParameter) : result string :=
  Ok ("<parameter id=" ++ quoted (rp_id p) ++ " name=" ++ quoted (rp_name p) ++ ">" ++
      Py.str (rp_value p) ++ "</parameter>").

(** A generator that numbers the identifiers it hands out. *)
Definition get_uuid (short : bool) (g : nat) : string * nat :=
  (Py.str_int (Z.of_nat g), S g).

Definition no_kwargs : kwargs Distribution :=
  {| kw_id := None; kw_distribution := None; kw_initial := None;
     kw_lower := None; kw_upper := None; kw_dimension := None;
     kw_sliced := None; kw_intervals := None; kw_param_spec := None |}.

Definition prior (c : prior_class) (id_ : string) (ds : list Distribution)
  (init : list Py.value) (sliced_ : bool) (ivs : list Py.value) : Prior Distribution :=
  {| class_of := c; id := id_; distribution := ds; initial := init;
     lower := neg_infinity; upper := infinity; dimension := 1%Z;
     sliced := sliced_; intervals := ivs; param_spec := "parameter.RealParameter" |}.

(** A constructor call that passes some of the keyword arguments. *)
Definition call (id_ : option string) (ds : option (list Distribution))
  (init : option (list Py.value)) (sliced_ : option bool)
  (spec : option string) : kwargs Distribution :=
  {| kw_id := id_; kw_distribution := ds; kw_initial := init;
     kw_lower := None; kw_upper := None; kw_dimension := None;
     kw_sliced := sliced_; kw_intervals := None; kw_param_spec := spec |}.

(** The module as imported with the generator at 0. *)
Definition env : module_env := fst (import_module get_uuid 0%nat).

Definition sampling : Prior Distribution :=
  prior SamplingProportion "samplingProportion" ["<Beta/>"; "<Exponential/>"]
        [Py.Float 0.5; Py.Float 0.25] true [Py.Float 1; Py.Float 2.5].

Definition clock : Prior Distribution :=
  prior ClockRate "clockRate" ["<LogNormal/>"] [Py.Float 2] false [].

Definition mtbd : Prior Distribution :=
  prior SamplingProportionMTBD "samplingProportion" ["<Beta/>"]
        [Py.Float 0; Py.Float 1.5; Py.Float 0] false [].

Definition sliced_fields (id_ : string) : fields Distribution :=
  field_values env PriorBase
    (call (Some id_) (Some ["<Beta/>"]) (Some [Py.Float 0.5]) (Some true) None).

End Demo.

(** The k-th slicing function of a sliced prior, k counted from 1: it
    selects component k-1 of the parameter. *)
Definition slice_function_fragment (id_ : string) (k : nat) : fragment :=
  {| tag := "function";
     attrs := [("spec", "beast.core.util.Slice");
               ("id", id_ ++ Py.str_int (Z.of_nat k));
               ("arg", "@" ++ id_);
               ("index", Py.str_int (Z.of_nat k - 1));
               ("count", "1")];
     body := None |}.

(** The logger of the k-th slice. *)
Definition slice_logger_fragment (id_ : string) (k : nat) : fragment :=
  {| tag := "log"; attrs := [("idref", id_ ++ Py.str_int (Z.of_nat k))]; body := None |}.

(** The slicing functions and the slice loggers of a prior, one per
    distribution. *)
Definition slice_function_fragments {Distribution : Type}
  (self : Prior Distribution) : list fragment :=
  map (slice_function_fragment (id self)) (seq 1 (length (distribution self))).

Definition slice_logger_fragments {Distribution : Type}
  (self : Prior Distribution) : list fragment :=
  map (slice_logger_fragment (id self)) (seq 1 (length (distribution self))).

(** Elements written one after the other, each ended by a newline. *)
Definition render_lines (fs : list fragment) : string :=
  String.concat "" (map (fun f => render_fragment f ++ nl) fs).

(** The value of the first attribute called [name]. *)
Definition attr (name : string) (f : fragment) : option string :=
  option_map snd (find (fun a => String.eqb (fst a) name) (attrs f)).

(** The classes whose pinned id starts with a slicing prefix. *)
Definition sliceable_classes : list prior_class :=
  [Origin; ReproductiveNumber; SamplingProportion; BecomeUninfectiousRate; Rho;
   SamplingProportionMTBD].

(** ** Strings and loops *)

Lemma append_assoc (a b c : string) : (a ++ b) ++ c = a ++ b ++ c.
Proof.
  induction a as [|ch a IH]; simpl; [reflexivity | now rewrite IH].
Qed.

Lemma append_empty_r (a : string) : a ++ "" = a.
Proof.
  induction a as [|ch a IH]; simpl; [reflexivity | now rewrite IH].
Qed.

Lemma concat_nosep_cons (x : string) (xs : list string) :
  String.concat "" (x :: xs) = x ++ String.concat "" xs.
Proof.
  destruct xs as [|y ys]; simpl; [now rewrite append_empty_r | reflexivity].
Qed.

(** A loop that appends one piece per element builds the concatenation of
    the pieces. *)
Lemma fold_left_append {A : Type} (g : string -> A -> string) (f : A -> string) :
  (forall acc a, g acc a = acc ++ f a) ->
  forall (l : list A) (init : string),
    fold_left g l init = init ++ String.concat "" (map f l).
Proof.
  intros Hg l; induction l as [|a l IH]; intros init.
  - simpl. now rewrite append_empty_r.
  - cbn [fold_left map]. rewrite IH, Hg, concat_nosep_cons, append_assoc.
    reflexivity.
Qed.

Lemma enumerate_from_length {A : Type} (l : list A) (start : Z) :
  length (Py.enumerate_from start l) = length l.
Proof.
  revert start; induction l as [|a l IH]; intros start; simpl;
    [reflexivity | now rewrite IH].
Qed.

Lemma nth_error_enumerate_from {A : Type} (l : list A) (start : Z) (i : nat) :
  nth_error (Py.enumerate_from start l) i =
  option_map (fun x => ((start + Z.of_nat i)%Z, x)) (nth_error l i).
Proof.
  revert start i; induction l as [|a l IH]; intros start [|i]; simpl; try reflexivity.
  - now rewrite Z.add_0_r.
  - rewrite IH. destruct (nth_error l i); simpl; [|reflexivity].
    do 2 f_equal. lia.
Qed.

(** Right-nests appends so that two renderings of the same text meet. *)
Ltac string_norm :=
  cbn -[Py.str_int Py.str Py.join];
  rewrite ?append_assoc;
  cbn -[Py.str_int Py.str Py.join];
  rewrite ?append_assoc;
  try reflexivity.

Lemma render_prior_fragment (ident target body_ : string) :
  render_fragment (prior_fragment ident target body_) =
  "<prior id=" ++ quoted ident ++ " name=" ++ quoted "distribution" ++
  " x=" ++ quoted target ++ ">" ++ body_ ++ "</prior>".
Proof.
  unfold render_fragment, prior_fragment, render_attr, quoted. string_norm.
Qed.

(** ** Properties of the renderers *)

Section Rendering.

Context {Distribution : Type}.
Variable Distribution_xml : Distribution -> string.
Variable RealParameter_xml : RealParameter -> result string.

Implicit Types self : Prior Distribution.

Lemma Prior_xml_sliced self :
  sliced self = true ->
  Prior_xml Distribution_xml self =
  Ok (String.concat "" (map render_fragment (sliced_fragments Distribution_xml self))).
Proof.
  intros Hs. unfold Prior_xml, sliced_fragments. rewrite Hs. cbn [negb].
  f_equal. rewrite map_map.
  erewrite fold_left_append; [reflexivity|].
  intros acc [i d]. cbn beta iota. f_equal.
  cbn [fst snd]. now rewrite render_prior_fragment.
Qed.

(** Every class but SamplingProportionMTBD inherits [Prior.xml]. *)
Lemma xml_inherited self :
  class_of self <> SamplingProportionMTBD ->
  xml Distribution_xml self = Prior_xml Distribution_xml self.
Proof.
  unfold xml. destruct (class_of self); congruence.
Qed.

(** C2, amended: a sliced prior of any class but SamplingProportionMTBD,
    over n distributions, renders as exactly n prior fragments,
    concatenated in index order with nothing between them; the k-th
    (k = 1..n) has identifier <id>Slice<k>, target @<id><k>, and embeds the
    rendering of distribution[k-1]. *)
Theorem sliced_prior_renders_one_fragment_per_distribution self :
  class_of self <> SamplingProportionMTBD ->
  sliced self = true ->
  exists frags : list fragment,
    xml Distribution_xml self =
      Ok (String.concat "" (map render_fragment frags)) /\
    length frags = length (distribution self) /\
    forall k : nat,
      (1 <= k <= length (distribution self))%nat ->
      exists d,
        nth_error (distribution self) (k - 1) = Some d /\
        nth_error frags (k - 1) =
          Some (slice_fragment (id self) k (Distribution_xml d)).
Proof.
  intros Hc Hs. rewrite (xml_inherited self Hc).
  exists (sliced_fragments Distribution_xml self). split; [|split].
  - now apply Prior_xml_sliced.
  - unfold sliced_fragments, Py.enumerate.
    now rewrite length_map, enumerate_from_length.
  - intros k Hk.
    destruct (nth_error (distribution self) (k - 1)) as [d|] eqn:Hd.
    2:{ apply nth_error_None in Hd. lia. }
    exists d. split; [reflexivity|].
    unfold sliced_fragments, Py.enumerate.
    rewrite nth_error_map, nth_error_enumerate_from, Hd. cbn.
    unfold slice_fragment. do 2 f_equal.
    all: replace (Z.of_nat (k - 1) + 1)%Z with (Z.of_nat k) by lia; reflexivity.
Qed.

(** C3, amended: an unsliced prior of any class but SamplingProportionMTBD,
    with a non-empty distribution, renders as one prior fragment with
    identifier <id>Prior and target @<id>, embedding the rendering of
    distribution[0] unchanged. *)
Theorem unsliced_prior_renders_single_fragment self d0 ds :
  class_of self <> SamplingProportionMTBD ->
  sliced self = false ->
  distribution self = d0 :: ds ->
  xml Distribution_xml self =
  Ok (render_fragment
        (prior_fragment (id self ++ "Prior") ("@" ++ id self) (Distribution_xml d0))).
Proof.
  intros Hc Hs Hd. rewrite (xml_inherited self Hc).
  unfold Prior_xml. rewrite Hs, Hd. cbn [negb first bind].
  now rewrite render_prior_fragment.
Qed.

(** C9: on an unsliced prior the three slice renderers return the empty
    string, and none of them raises. *)
Theorem unsliced_slice_renderers_are_empty self :
  sliced self = false ->
  xml_slice_function self = "" /\
  xml_slice_rate_change_times self = Ok "" /\
  xml_slice_logger self = "".
Proof.
  intros Hs.
  unfold xml_slice_function, xml_slice_rate_change_times, xml_slice_logger.
  rewrite Hs. cbn [negb]. repeat split.
Qed.

(** *** Role prefixes *)

Lemma prefix_uncons (a : ascii) (p s : string) :
  String.prefix (String a p) s = true ->
  exists s', s = String a s' /\ String.prefix p s' = true.
Proof.
  destruct s as [|b s']; simpl; [discriminate|].
  destruct (ascii_dec a b) as [->|]; [|discriminate].
  intros H. now exists s'.
Qed.

Ltac uncons H :=
  let s := fresh "s" in
  let E := fresh "E" in
  apply prefix_uncons in H; destruct H as (s & E & H).

Lemma reproductiveNumber_not_sampling (s : string) :
  Py.startswith s "reproductiveNumber" = true ->
  Py.startswith s "samplingProportion" = false /\ Py.startswith s "rho" = false.
Proof.
  unfold Py.startswith. intros H.
  uncons H. uncons H. subst. split; reflexivity.
Qed.

Lemma becomeUninfectious_not_others (s : string) :
  Py.startswith s "becomeUninfectious" = true ->
  Py.startswith s "samplingProportion" = false /\ Py.startswith s "rho" = false /\
  Py.startswith s "reproductiveNumber" = false.
Proof.
  unfold Py.startswith. intros H.
  uncons H. subst. repeat split; reflexivity.
Qed.

Lemma origin_not_rate_role (s : string) :
  Py.startswith s "origin" = true ->
  Py.startswith_any s rate_roles = false.
Proof.
  unfold Py.startswith_any, rate_roles, Py.startswith. intros H.
  uncons H. subst. reflexivity.
Qed.

Lemma render_rate_change_times_fragment (tag_ value_ : string) :
  render_fragment (rate_change_times_fragment tag_ value_) =
  "<" ++ tag_ ++ " spec=" ++ quoted "beast.core.parameter.RealParameter" ++
  " value=" ++ quoted value_ ++ "/>".
Proof.
  unfold render_fragment, rate_change_times_fragment, render_attr, quoted.
  string_norm.
Qed.

(** C4: on a sliced prior the rate-change-times renderer returns one
    fragment whose value attribute is the space-joined intervals and whose
    tag is samplingRateChangeTimes for an id starting with rho or
    samplingProportion, birthRateChangeTimes for reproductiveNumber,
    deathRateChangeTimes for becomeUninfectious; for an id with none of
    these prefixes, origin included, it raises a CritterError whose
    message names the four roles. *)
Theorem sliced_rate_change_times_by_role self :
  sliced self = true ->
  let value_ := Py.join " " (map Py.str (intervals self)) in
  let renders tag_ :=
    xml_slice_rate_change_times self =
    Ok (render_fragment (rate_change_times_fragment tag_ value_)) in
  let fails :=
    exists msg,
      xml_slice_rate_change_times self = Raise (CritterError msg) /\
      forall role, In role rate_roles -> Py.contains role msg = true in
  (Py.startswith (id self) "rho" = true \/
   Py.startswith (id self) "samplingProportion" = true ->
   renders "samplingRateChangeTimes") /\
  (Py.startswith (id self) "reproductiveNumber" = true ->
   renders "birthRateChangeTimes") /\
  (Py.startswith (id self) "becomeUninfectious" = true ->
   renders "deathRateChangeTimes") /\
  (Py.startswith_any (id self) rate_roles = false -> fails) /\
  (Py.startswith (id self) "origin" = true -> fails).
Proof.
  intros Hs value_ renders fails.
  assert (Hfail : Py.startswith_any (id self) rate_roles = false -> fails).
  { unfold Py.startswith_any, rate_roles. cbn [existsb].
    rewrite !orb_false_iff. intros (Hr & Hsp & Hrn & Hbu & _).
    exists rate_change_times_message. split.
    - unfold xml_slice_rate_change_times.
      rewrite Hs, Hr, Hsp, Hrn, Hbu. reflexivity.
    - intros role Hin. cbn [In] in Hin.
      repeat (destruct Hin as [<-|Hin]; [vm_compute; reflexivity|]).
      contradiction. }
  unfold renders. rewrite render_rate_change_times_fragment.
  unfold xml_slice_rate_change_times. rewrite Hs. cbn [negb].
  repeat split.
  - intros [Hr|Hsp].
    + rewrite Hr. now destruct (Py.startswith (id self) "samplingProportion").
    + now rewrite Hsp.
  - intros Hrn. destruct (reproductiveNumber_not_sampling _ Hrn) as [-> ->].
    now rewrite Hrn.
  - intros Hbu. destruct (becomeUninfectious_not_others _ Hbu) as (-> & -> & ->).
    now rewrite Hbu.
  - exact Hfail.
  - intros Ho. apply Hfail. now apply origin_not_rate_role.
Qed.

(** *** The multi-type sampling proportion *)

Lemma ne_zero_false_iff (v : Py.value) :
  Py.ne_zero v = false <-> exactly_zero v.
Proof.
  destruct v as [|b|z|f|s]; cbn [Py.ne_zero exactly_zero].
  - split; [discriminate | contradiction].
  - reflexivity.
  - rewrite negb_false_iff. apply Z.eqb_eq.
  - rewrite negb_false_iff, FloatAxioms.eqb_spec.
    change (Prim2SF 0) with (S754_zero false).
    destruct (Prim2SF f) as [s| s | |s m e]; cbn.
    + split; [intros _; now exists s | reflexivity].
    + split; [destruct s; discriminate | intros [s' H]; discriminate].
    + split; [discriminate | intros [s' H]; discriminate].
    + split; [destruct s; discriminate | intros [s' H]; discriminate].
  - split; [discriminate | contradiction].
Qed.

Lemma render_excludable_prior_fragment (id_ dim mask rendering : string) :
  render_fragment (excludable_prior_fragment id_ dim mask rendering) =
  "<distribution id=" ++ quoted (id_ ++ "Prior") ++
  " spec=" ++ quoted "multitypetree.distributions.ExcludablePrior" ++
  " x=" ++ quoted ("@" ++ id_) ++ ">" ++
  "<xInclude id=" ++ quoted "samplingProportionXInclude" ++
  " spec=" ++ quoted "parameter.BooleanParameter" ++
  " dimension=" ++ quoted dim ++ ">" ++
  mask ++ "</xInclude>" ++ rendering ++ "</distribution>".
Proof.
  unfold excludable_prior_fragment, mask_fragment, render_fragment, render_attr, quoted.
  string_norm.
Qed.

(** C6, amended: a SamplingProportionMTBD instance with a non-empty
    distribution renders as one excludable-prior fragment that holds the
    inclusion-mask parameter and then the rendering of distribution[0];
    the mask has one entry per element of initial, true exactly when that
    element is not exactly zero, and for initial = [0.0, 1.5, 0.0] it
    reads false true false. *)
Theorem excludable_prior_carries_inclusion_mask self d0 ds :
  class_of self = SamplingProportionMTBD ->
  distribution self = d0 :: ds ->
  exists entries : list string,
    xml Distribution_xml self =
      Ok (render_fragment
            (excludable_prior_fragment (id self) (Py.str_int (dimension self))
               (Py.join " " entries) (Distribution_xml d0))) /\
    length entries = length (initial self) /\
    (forall k v, nth_error (initial self) k = Some v ->
       exists e, nth_error entries k = Some e /\
                 (e = "true" \/ e = "false") /\
                 (e = "true" <-> ~ exactly_zero v)) /\
    (initial self = [Py.Float 0; Py.Float 1.5; Py.Float 0] ->
     Py.join " " entries = "false true false").
Proof.
  intros Hc Hd. exists (mask_entries self). split; [|split; [|split]].
  - unfold xml. rewrite Hc. unfold SamplingProportionMTBD_xml.
    rewrite Hd. cbn [first bind].
    now rewrite render_excludable_prior_fragment.
  - unfold mask_entries. apply length_map.
  - intros k v Hv. unfold mask_entries.
    rewrite nth_error_map, Hv. cbn [option_map].
    eexists. split; [reflexivity|].
    destruct (Py.ne_zero v) eqn:E.
    + split; [now left|]. split; [|reflexivity].
      intros _ Hz. apply ne_zero_false_iff in Hz. congruence.
    + split; [now right|]. split; [discriminate|].
      intros Hnz. apply ne_zero_false_iff in E. contradiction.
  - intros Hi. unfold mask_entries. rewrite Hi. reflexivity.
Qed.

(** *** The state node *)

(** C7: with a non-empty initial, the value handed to the parameter is
    the elements joined by single spaces, in order, when there are
    several, and the lone element itself when there is one; so
    initial = [2.0] with dimension 1 gives the text 2.0 and
    initial = [1.0, 2.0, 3.0] gives 1.0 2.0 3.0. *)
Theorem xml_param_formats_initial self :
  initial self <> [] ->
  exists v : Py.value,
    let param := {| rp_id := id self;
                    rp_name := "stateNode";
                    rp_value := v;
                    rp_spec := param_spec self;
                    rp_dimension := dimension self;
                    rp_lower := lower self;
                    rp_upper := upper self |} in
    xml_param_param self = Ok param /\
    xml_param RealParameter_xml self = RealParameter_xml param /\
    ((1 < length (initial self))%nat ->
     v = Py.Str (Py.join " " (map Py.str (initial self)))) /\
    (forall x, initial self = [x] -> v = x) /\
    (initial self = [Py.Float 2] -> dimension self = 1%Z -> Py.str v = "2.0") /\
    (initial self = [Py.Float 1; Py.Float 2; Py.Float 3] ->
     Py.str v = "1.0 2.0 3.0").
Proof.
  intros Hne.
  assert (Hv : exists v, xml_param_initial self = Ok v /\
            ((1 < length (initial self))%nat ->
             v = Py.Str (Py.join " " (map Py.str (initial self)))) /\
            (forall x, initial self = [x] -> v = x)).
  { unfold xml_param_initial.
    destruct (initial self) as [|x [|y l]] eqn:Hi; [congruence| |].
    - exists x. cbn. repeat split; [lia | congruence].
    - eexists. cbn [length Nat.ltb Nat.leb]. split; [reflexivity|].
      split; [reflexivity | discriminate]. }
  destruct Hv as (v & Hv & Hmany & Hone). exists v. cbn zeta.
  assert (Hp : xml_param_param self =
               Ok {| rp_id := id self; rp_name := "stateNode"; rp_value := v;
                     rp_spec := param_spec self; rp_dimension := dimension self;
                     rp_lower := lower self; rp_upper := upper self |}).
  { unfold xml_param_param. now rewrite Hv. }
  split; [exact Hp|]. split; [unfold xml_param; now rewrite Hp|].
  split; [exact Hmany|]. split; [exact Hone|]. split.
  - intros Hi _. rewrite (Hone _ Hi). vm_compute. reflexivity.
  - intros Hi. rewrite Hmany by (rewrite Hi; cbn; lia).
    rewrite Hi. vm_compute. reflexivity.
Qed.

End Rendering.

(** ** Properties of construction *)

Section Construction.

Context {Distribution : Type}.
Context {uuid_state : Type}.
Variable get_uuid : bool -> uuid_state -> string * uuid_state.

Implicit Types (kw : kwargs Distribution) (m : module_env) (c : prior_class).

(** What a successful construction returns. *)
Lemma new_inr m c kw (p : Prior Distribution) :
  new m c kw = inr p ->
  let values := field_values m c kw in
  validate_sliced_id values = Ok values /\
  kw_distribution kw = Some (distribution p) /\
  kw_initial kw = Some (initial p) /\
  class_of p = c /\
  id p = f_id values /\
  sliced p = f_sliced values /\
  param_spec p = f_param_spec values.
Proof.
  unfold new. cbn zeta.
  assert (Hv : forall v, validate_sliced_id (field_values m c kw) = Ok v ->
                         v = field_values m c kw).
  { unfold validate_sliced_id. intros v.
    destruct (_ && _); [discriminate | congruence]. }
  destruct (f_distribution (field_values m c kw)) as [d|] eqn:Hd;
    destruct (f_initial (field_values m c kw)) as [i|] eqn:Hi;
    destruct (validate_sliced_id (field_values m c kw)) as [v|e] eqn:Hval;
    try discriminate.
  intros [= <-]. rewrite (Hv v eq_refl). cbn.
  repeat split; try reflexivity; assumption.
Qed.

(** The validator alone decides whether a call that passes both required
    fields succeeds. *)
Lemma new_with_required_fields m c kw d i :
  kw_distribution kw = Some d ->
  kw_initial kw = Some i ->
  validate_sliced_id (field_values m c kw) = Ok (field_values m c kw) ->
  exists p, new m c kw = inr p /\ distribution p = d /\ initial p = i.
Proof.
  intros Hd Hi Hv. unfold new. cbn zeta.
  change (f_distribution (field_values m c kw)) with (kw_distribution kw).
  change (f_initial (field_values m c kw)) with (kw_initial kw).
  rewrite Hd, Hi, Hv. eexists. split; [reflexivity|]. cbn. auto.
Qed.

Lemma new_root_error m c kw e :
  validate_sliced_id (field_values m c kw) = Raise e ->
  exists errs, new m c kw = inl errs /\ In (RootError e) errs.
Proof.
  intros Hv. unfold new. cbn zeta. rewrite Hv.
  destruct (f_distribution _), (f_initial _); eexists; (split; [reflexivity|]);
    cbn; rewrite ?in_app_iff; cbn; auto 6.
Qed.

(** The message the validator passes to the exception constructor names
    the five prefixes. *)
Lemma sliced_id_message_names_prefixes (p : string) :
  In p sliced_prefixes -> Py.contains p sliced_id_message = true.
Proof.
  intros Hin. cbn [In sliced_prefixes] in Hin.
  repeat (destruct Hin as [<-|Hin]; [vm_compute; reflexivity|]).
  contradiction.
Qed.

(** C1: what the code does.  A sliced prior whose id starts with none of
    the five prefixes never passes the validator and its construction
    fails; but the validator calls the ValidationError constructor with
    the message alone, so what is raised and reported is the TypeError of
    that call, which carries neither the id nor the prefixes.  A sliced
    prior whose id starts with one of the prefixes passes the validator. *)
Theorem sliced_id_must_have_role_prefix (fields_ : fields Distribution) :
  f_sliced fields_ = true ->
  (Py.startswith_any (f_id fields_) sliced_prefixes = false ->
   validate_sliced_id fields_ = Raise TypeError /\
   (forall m c kw, field_values m c kw = fields_ ->
      exists errs, new m c kw = inl errs /\ In (RootError TypeError) errs)) /\
  (Py.startswith_any (f_id fields_) sliced_prefixes = true ->
   validate_sliced_id fields_ = Ok fields_).
Proof.
  intros Hs. split; intros Hp.
  - assert (Hv : validate_sliced_id fields_ = Raise TypeError).
    { unfold validate_sliced_id. now rewrite Hs, Hp. }
    split; [exact Hv|].
    intros m c kw <-. now apply new_root_error.
  - unfold validate_sliced_id. now rewrite Hs, Hp.
Qed.

(** C5, amended: construction does not look at the length of
    distribution.  A call that passes an empty distribution and an
    initial, and that meets the sliced-id rule, returns a prior with an
    empty distribution; a call that omits distribution fails with an
    error naming that field. *)
Theorem empty_distribution_is_accepted m c kw :
  (forall i,
     kw_distribution kw = Some [] ->
     kw_initial kw = Some i ->
     validate_sliced_id (field_values m c kw) = Ok (field_values m c kw) ->
     exists p, new m c kw = inr p /\ distribution p = []) /\
  (kw_distribution kw = None ->
   exists errs, new m c kw = inl errs /\ In (Missing "distribution") errs).
Proof.
  split.
  - intros i Hd Hi Hv.
    destruct (new_with_required_fields m c kw [] i Hd Hi Hv) as (p & Hp & Hpd & _).
    now exists p.
  - intros Hd. unfold new. cbn zeta.
    change (f_distribution (field_values m c kw)) with (kw_distribution kw).
    rewrite Hd. eexists. split; [reflexivity|]. cbn. now left.
Qed.

(** C8, amended: a GroupSize instance carries the param_spec the caller
    passed, and the integer-parameter tag when the caller passed none. *)
Theorem group_size_param_spec_default m kw (p : Prior Distribution) :
  new m GroupSize kw = inr p ->
  param_spec p = match kw_param_spec kw with
                 | Some spec => spec
                 | None => "parameter.IntegerParameter"
                 end.
Proof.
  intros Hn. apply new_inr in Hn. cbn zeta in Hn.
  destruct Hn as (_ & _ & _ & _ & _ & _ & ->). reflexivity.
Qed.

(** C10: the default id of the base class is drawn once, when the class
    body runs; two priors constructed without an id argument carry the
    same identifier, Prior.<uuid> for that one draw. *)
Theorem default_id_is_shared (g : uuid_state) kw1 kw2 (p1 p2 : Prior Distribution) :
  let m := fst (import_module get_uuid g) in
  kw_id kw1 = None ->
  kw_id kw2 = None ->
  new m PriorBase kw1 = inr p1 ->
  new m PriorBase kw2 = inr p2 ->
  id p1 = id p2 /\ id p1 = "Prior." ++ fst (get_uuid true g).
Proof.
  intros m H1 H2 Hn1 Hn2.
  apply new_inr in Hn1. apply new_inr in Hn2. cbn zeta in Hn1, Hn2.
  destruct Hn1 as (_ & _ & _ & _ & -> & _).
  destruct Hn2 as (_ & _ & _ & _ & -> & _).
  cbn [field_values f_id]. rewrite H1, H2. cbn [or_default default_id].
  split; [reflexivity|].
  subst m. unfold import_module. now destruct (get_uuid true g).
Qed.

End Construction.

(** ** The theorems at concrete priors *)

Lemma sliced_prior_renders_one_fragment_per_distribution_witness :
  class_of Demo.sampling <> SamplingProportionMTBD /\
  sliced Demo.sampling = true /\
  exists frags : list fragment,
    xml Demo.Distribution_xml Demo.sampling =
      Ok (String.concat "" (map render_fragment frags)) /\
    length frags = 2%nat /\
    forall k : nat,
      (1 <= k <= 2)%nat ->
      exists d,
        nth_error (distribution Demo.sampling) (k - 1) = Some d /\
        nth_error frags (k - 1) =
          Some (slice_fragment "samplingProportion" k (Demo.Distribution_xml d)).
Proof.
  split; [discriminate|]. split; [reflexivity|].
  apply (sliced_prior_renders_one_fragment_per_distribution
           Demo.Distribution_xml Demo.sampling); [discriminate | reflexivity].
Defined.

Lemma unsliced_prior_renders_single_fragment_witness :
  class_of Demo.clock <> SamplingProportionMTBD /\
  sliced Demo.clock = false /\
  distribution Demo.clock = ["<LogNormal/>"] /\
  xml Demo.Distribution_xml Demo.clock =
  Ok (render_fragment (prior_fragment "clockRatePrior" "@clockRate" "<LogNormal/>")).
Proof.
  split; [discriminate|]. split; [reflexivity|]. split; [reflexivity|].
  apply (unsliced_prior_renders_single_fragment
           Demo.Distribution_xml Demo.clock "<LogNormal/>" []);
    [discriminate | reflexivity | reflexivity].
Defined.

Lemma unsliced_slice_renderers_are_empty_witness :
  sliced Demo.clock = false /\
  xml_slice_function Demo.clock = "" /\
  xml_slice_rate_change_times Demo.clock = Ok "" /\
  xml_slice_logger Demo.clock = "".
Proof.
  split; [reflexivity|].
  apply (unsliced_slice_renderers_are_empty Demo.clock). reflexivity.
Defined.

Lemma sliced_rate_change_times_by_role_witness :
  sliced Demo.sampling = true /\
  xml_slice_rate_change_times Demo.sampling =
  Ok (render_fragment (rate_change_times_fragment "samplingRateChangeTimes" "1.0 2.5")).
Proof.
  split; [reflexivity|].
  apply (proj1 (sliced_rate_change_times_by_role Demo.sampling eq_refl)).
  right. reflexivity.
Defined.

Lemma excludable_prior_carries_inclusion_mask_witness :
  class_of Demo.mtbd = SamplingProportionMTBD /\
  distribution Demo.mtbd = ["<Beta/>"] /\
  exists entries : list string,
    xml Demo.Distribution_xml Demo.mtbd =
      Ok (render_fragment
            (excludable_prior_fragment "samplingProportion" "1"
               (Py.join " " entries) "<Beta/>")) /\
    length entries = 3%nat /\
    (forall k v, nth_error (initial Demo.mtbd) k = Some v ->
       exists e, nth_error entries k = Some e /\
                 (e = "true" \/ e = "false") /\
                 (e = "true" <-> ~ exactly_zero v)) /\
    (initial Demo.mtbd = [Py.Float 0; Py.Float 1.5; Py.Float 0] ->
     Py.join " " entries = "false true false").
Proof.
  split; [reflexivity|]. split; [reflexivity|].
  apply (excludable_prior_carries_inclusion_mask
           Demo.Distribution_xml Demo.mtbd "<Beta/>" []); reflexivity.
Defined.

Lemma xml_param_formats_initial_witness :
  initial Demo.clock <> [] /\
  exists v : Py.value,
    xml_param_param Demo.clock =
      Ok {| rp_id := "clockRate"; rp_name := "stateNode"; rp_value := v;
            rp_spec := "parameter.RealParameter"; rp_dimension := 1%Z;
            rp_lower := neg_infinity; rp_upper := infinity |} /\
    Py.str v = "2.0".
Proof.
  split; [discriminate|].
  destruct (xml_param_formats_initial Demo.RealParameter_xml Demo.clock)
    as (v & Hp & _ & _ & _ & Hv & _); [discriminate|].
  exists v. split; [exact Hp | apply Hv; reflexivity].
Defined.

Lemma sliced_id_must_have_role_prefix_witness :
  f_sliced (Demo.sliced_fields "clockRate") = true /\
  Py.startswith_any "clockRate" sliced_prefixes = false /\
  validate_sliced_id (Demo.sliced_fields "clockRate") = Raise TypeError /\
  (exists errs,
     new Demo.env PriorBase
         (Demo.call (Some "clockRate") (Some ["<Beta/>"]) (Some [Py.Float 0.5])
                    (Some true) None) = inl errs /\
     In (RootError TypeError) errs) /\
  f_sliced (Demo.sliced_fields "rhoSerial") = true /\
  Py.startswith_any "rhoSerial" sliced_prefixes = true /\
  validate_sliced_id (Demo.sliced_fields "rhoSerial") = Ok (Demo.sliced_fields "rhoSerial").
Proof.
  split; [reflexivity|]. split; [reflexivity|]. split.
  { apply (proj1 (sliced_id_must_have_role_prefix (Demo.sliced_fields "clockRate") eq_refl)).
    reflexivity. }
  split.
  { apply (proj2 (proj1 (sliced_id_must_have_role_prefix
                           (Demo.sliced_fields "clockRate") eq_refl) eq_refl)).
    reflexivity. }
  split; [reflexivity|]. split; [reflexivity|].
  apply (proj2 (sliced_id_must_have_role_prefix (Demo.sliced_fields "rhoSerial") eq_refl)).
  reflexivity.
Defined.

Lemma empty_distribution_is_accepted_witness :
  exists p,
    new Demo.env PriorBase (Demo.call None (Some []) (Some []) None None) = inr p /\
    distribution p = [].
Proof.
  apply (proj1 (empty_distribution_is_accepted Demo.env PriorBase
                  (Demo.call None (Some []) (Some []) None None)) []);
    reflexivity.
Defined.

Lemma group_size_param_spec_default_witness :
  exists p,
    new Demo.env GroupSize (Demo.call None (Some ["<Uniform/>"]) (Some [Py.Int 1]) None None)
      = inr p /\
    param_spec p = "parameter.IntegerParameter".
Proof.
  eexists. split; [reflexivity|].
  apply (group_size_param_spec_default Demo.env
           (Demo.call None (Some ["<Uniform/>"]) (Some [Py.Int 1]) None None)).
  reflexivity.
Defined.

Lemma default_id_is_shared_witness :
  exists p1 p2 : Prior Demo.Distribution,
    new Demo.env PriorBase (Demo.call None (Some ["<Beta/>"]) (Some [Py.Float 1]) None None)
      = inr p1 /\
    new Demo.env PriorBase (Demo.call None (Some ["<Gamma/>"]) (Some [Py.Int 3]) None None)
      = inr p2 /\
    id p1 = id p2 /\ id p1 = "Prior.0".
Proof.
  eexists. eexists. split; [reflexivity|]. split; [reflexivity|].
  apply (default_id_is_shared Demo.get_uuid 0%nat
           (Demo.call None (Some ["<Beta/>"]) (Some [Py.Float 1]) None None)
           (Demo.call None (Some ["<Gamma/>"]) (Some [Py.Int 3]) None None));
    reflexivity.
Defined.

(** ** Where the documented behaviour and the code part ways *)

(** C2 as stated fails: a sliced SamplingProportionMTBD over two
    distributions is constructed, and its rendering is not two prior
    fragments. *)
Lemma sliced_excludable_prior_is_one_element :
  exists p,
    new Demo.env SamplingProportionMTBD
        (Demo.call None (Some ["<Beta/>"; "<Exponential/>"])
                   (Some [Py.Float 0.5; Py.Float 0.25]) (Some true) None) = inr p /\
    sliced p = true /\
    ~ exists frags : list fragment,
        xml Demo.Distribution_xml p =
          Ok (String.concat "" (map render_fragment frags)) /\
        length frags = length (distribution p) /\
        forall k : nat,
          (1 <= k <= length (distribution p))%nat ->
          exists d,
            nth_error (distribution p) (k - 1) = Some d /\
            nth_error frags (k - 1) =
              Some (slice_fragment (id p) k (Demo.Distribution_xml d)).
Proof.
  eexists. split; [reflexivity|]. split; [reflexivity|].
  intros (frags & Hx & Hlen & Hk).
  destruct frags as [|a [|b [|c l]]]; try discriminate Hlen.
  destruct (Hk 1%nat) as (d1 & Hd1 & Ha); [cbn; lia|].
  destruct (Hk 2%nat) as (d2 & Hd2 & Hb); [cbn; lia|].
  cbn in Hd1, Hd2, Ha, Hb.
  injection Hd1 as <-. injection Hd2 as <-.
  injection Ha as ->. injection Hb as ->.
  vm_compute in Hx. discriminate Hx.
Qed.

(** C3 as stated fails: an unsliced SamplingProportionMTBD with a
    distribution is constructed, and its rendering is not the prior
    fragment. *)
Lemma unsliced_excludable_prior_is_not_prior_fragment :
  exists p d0 ds,
    new Demo.env SamplingProportionMTBD
        (Demo.call None (Some ["<Beta/>"]) (Some [Py.Float 0.5]) None None) = inr p /\
    sliced p = false /\
    distribution p = d0 :: ds /\
    xml Demo.Distribution_xml p <>
    Ok (render_fragment
          (prior_fragment (id p ++ "Prior") ("@" ++ id p) (Demo.Distribution_xml d0))).
Proof.
  eexists. exists "<Beta/>", []. split; [reflexivity|]. split; [reflexivity|].
  split; [reflexivity|]. vm_compute. discriminate.
Qed.

(** C5 as stated fails: a prior is constructed from an empty distribution. *)
Lemma empty_distribution_constructs :
  exists p,
    new Demo.env PriorBase (Demo.call None (Some []) (Some [Py.Float 1]) None None) = inr p /\
    distribution p = [] /\
    Prior_xml Demo.Distribution_xml p = Raise (IndexError "list index out of range").
Proof.
  eexists. split; [reflexivity|]. split; reflexivity.
Qed.

(** C6 as stated fails: a SamplingProportionMTBD instance with an empty
    distribution has no rendering. *)
Lemma excludable_prior_without_distribution_raises :
  exists p,
    new Demo.env SamplingProportionMTBD
        (Demo.call None (Some []) (Some [Py.Float 0; Py.Float 1.5; Py.Float 0]) None None)
      = inr p /\
    class_of p = SamplingProportionMTBD /\
    xml Demo.Distribution_xml p = Raise (IndexError "list index out of range").
Proof.
  eexists. split; [reflexivity|]. split; reflexivity.
Qed.

(** C8 as stated fails: a GroupSize constructed with another param_spec
    keeps the caller's value. *)
Lemma group_size_param_spec_can_be_overridden :
  exists p,
    new Demo.env GroupSize
        (Demo.call None (Some ["<Uniform/>"]) (Some [Py.Int 1]) None
                   (Some "parameter.RealParameter"))
      = inr p /\
    class_of p = GroupSize /\
    param_spec p = "parameter.RealParameter" /\
    param_spec p <> "parameter.IntegerParameter".
Proof.
  eexists. split; [reflexivity|]. split; [reflexivity|]. split; [reflexivity|].
  discriminate.
Qed.

(** ** Slices: functions, loggers and the references between them *)

Section Slices.

Context {Distribution : Type}.
Variable Distribution_xml : Distribution -> string.

Implicit Types self : Prior Distribution.

(** [string_norm], repeated until the text no longer changes. *)
Ltac string_norm_deep :=
  repeat (progress (cbn -[Py.str_int Py.str Py.join]; rewrite ?append_assoc));
  try reflexivity.

(** A loop over [enumerate] whose pieces depend on the index only. *)
Lemma fold_left_enumerate_index {A : Type} (g : string -> Z * A -> string)
  (f : nat -> string) :
  (forall acc (j : nat) (a : A), g acc (Z.of_nat j, a) = acc ++ f j) ->
  forall (l : list A) (s : nat) (init : string),
    fold_left g (Py.enumerate_from (Z.of_nat s) l) init =
    init ++ String.concat "" (map f (seq s (length l))).
Proof.
  intros Hg l; induction l as [|a l IH]; intros s init.
  - simpl. now rewrite append_empty_r.
  - cbn [Py.enumerate_from fold_left length seq map].
    replace (Z.of_nat s + 1)%Z with (Z.of_nat (S s)) by lia.
    rewrite IH, Hg, concat_nosep_cons, append_assoc. reflexivity.
Qed.

Lemma render_slice_function_fragment (id_ : string) (j : nat) :
  render_fragment (slice_function_fragment id_ (S j)) ++ nl =
  "<function spec=" ++ quoted "beast.core.util.Slice" ++
  " id=" ++ quoted (id_ ++ Py.str_int (Z.of_nat j + 1)) ++
  " arg=" ++ quoted ("@" ++ id_) ++
  " index=" ++ quoted (Py.str_int (Z.of_nat j)) ++
  " count=" ++ quoted "1" ++ "/>" ++ nl.
Proof.
  unfold render_fragment, slice_function_fragment, render_attr, quoted.
  replace (Z.of_nat (S j) - 1)%Z with (Z.of_nat j) by lia.
  replace (Z.of_nat (S j)) with (Z.of_nat j + 1)%Z by lia.
  string_norm_deep.
Qed.

Lemma render_slice_logger_fragment (id_ : string) (j : nat) :
  render_fragment (slice_logger_fragment id_ (S j)) ++ nl =
  "<log idref=" ++ quoted (id_ ++ Py.str_int (Z.of_nat j + 1)) ++ "/>" ++ nl.
Proof.
  unfold render_fragment, slice_logger_fragment, render_attr, quoted.
  replace (Z.of_nat (S j)) with (Z.of_nat j + 1)%Z by lia.
  string_norm_deep.
Qed.

(** X1: on a sliced prior over n distributions the slice-function renderer
    emits n function elements, each followed by a newline, in order; the
    k-th declares <id><k> as component k-1 (count 1) of @<id>. *)
Theorem sliced_slice_functions self :
  sliced self = true ->
  xml_slice_function self =
  String.concat ""
    (map (fun k => render_fragment (slice_function_fragment (id self) k) ++ nl)
         (seq 1 (length (distribution self)))).
Proof.
  intros Hs. unfold xml_slice_function, Py.enumerate. rewrite Hs. cbn [negb].
  rewrite <- seq_shift, map_map. change 0%Z with (Z.of_nat 0).
  rewrite fold_left_enumerate_index
    with (f := fun j => render_fragment (slice_function_fragment (id self) (S j)) ++ nl).
  - reflexivity.
  - intros acc j a. cbn beta iota. f_equal.
    now rewrite render_slice_function_fragment.
Qed.

(** X2: on a sliced prior over n distributions the slice-logger renderer
    emits n log elements, each followed by a newline, in order; the k-th
    refers to <id><k>. *)
Theorem sliced_slice_loggers self :
  sliced self = true ->
  xml_slice_logger self =
  String.concat ""
    (map (fun k => render_fragment (slice_logger_fragment (id self) k) ++ nl)
         (seq 1 (length (distribution self)))).
Proof.
  intros Hs. unfold xml_slice_logger, Py.enumerate. rewrite Hs. cbn [negb].
  rewrite <- seq_shift, map_map. change 0%Z with (Z.of_nat 0).
  rewrite fold_left_enumerate_index
    with (f := fun j => render_fragment (slice_logger_fragment (id self) (S j)) ++ nl).
  - reflexivity.
  - intros acc j a. cbn beta iota. f_equal.
    now rewrite render_slice_logger_fragment.
Qed.

Lemma nth_error_sliced_fragments self (k : nat) (d : Distribution) :
  nth_error (distribution self) k = Some d ->
  nth_error (sliced_fragments Distribution_xml self) k =
  Some (slice_fragment (id self) (S k) (Distribution_xml d)).
Proof.
  intros Hd. unfold sliced_fragments, Py.enumerate.
  rewrite nth_error_map, nth_error_enumerate_from, Hd. cbn.
  unfold slice_fragment.
  replace (Z.of_nat (S k)) with (Z.of_nat k + 1)%Z by lia. reflexivity.
Qed.

Lemma nth_error_map_seq {B : Type} (f : nat -> B) (n k : nat) :
  (k < n)%nat -> nth_error (map f (seq 1 n)) k = Some (f (S k)).
Proof.
  intros Hk. rewrite nth_error_map, nth_error_seq.
  destruct (Nat.ltb_spec k n); [reflexivity | lia].
Qed.

(** The text of the slice functions is the rendering of
    [slice_function_fragments], line by line. *)
Lemma xml_slice_function_lines self :
  sliced self = true ->
  xml_slice_function self = render_lines (slice_function_fragments self).
Proof.
  intros Hs. unfold xml_slice_function, render_lines, slice_function_fragments, Py.enumerate.
  rewrite Hs. cbn [negb].
  rewrite <- seq_shift, !map_map. change 0%Z with (Z.of_nat 0).
  rewrite fold_left_enumerate_index
    with (f := fun j => render_fragment (slice_function_fragment (id self) (S j)) ++ nl).
  - reflexivity.
  - intros acc j a. cbn beta iota. f_equal.
    now rewrite render_slice_function_fragment.
Qed.

Lemma xml_slice_logger_lines self :
  sliced self = true ->
  xml_slice_logger self = render_lines (slice_logger_fragments self).
Proof.
  intros Hs. unfold xml_slice_logger, render_lines, slice_logger_fragments, Py.enumerate.
  rewrite Hs. cbn [negb].
  rewrite <- seq_shift, !map_map. change 0%Z with (Z.of_nat 0).
  rewrite fold_left_enumerate_index
    with (f := fun j => render_fragment (slice_logger_fragment (id self) (S j)) ++ nl).
  - reflexivity.
  - intros acc j a. cbn beta iota. f_equal.
    now rewrite render_slice_logger_fragment.
Qed.

Lemma xml_sliced_fragments self :
  class_of self <> SamplingProportionMTBD ->
  sliced self = true ->
  xml Distribution_xml self =
  Ok (String.concat "" (map render_fragment (sliced_fragments Distribution_xml self))).
Proof.
  intros Hc Hs. unfold xml.
  destruct (class_of self); try congruence; now apply Prior_xml_sliced.
Qed.

(** X3: the three sliced outputs of a prior (of any class but
    SamplingProportionMTBD) agree on their references.  The prior
    declaration, the slice functions and the slice loggers are the
    renderings of three lists of elements, and at every index the prior
    element targets the identifier that the function element declares, the
    logger element logs that same identifier, and the function element
    selects from the parameter @<id>. *)
Theorem sliced_outputs_share_slice_identifiers self :
  class_of self <> SamplingProportionMTBD ->
  sliced self = true ->
  xml Distribution_xml self =
    Ok (String.concat "" (map render_fragment (sliced_fragments Distribution_xml self))) /\
  xml_slice_function self = render_lines (slice_function_fragments self) /\
  xml_slice_logger self = render_lines (slice_logger_fragments self) /\
  forall (k : nat) (d : Distribution),
    nth_error (distribution self) k = Some d ->
    exists (prior_k function_k logger_k : fragment) (ident : string),
      nth_error (sliced_fragments Distribution_xml self) k = Some prior_k /\
      nth_error (slice_function_fragments self) k = Some function_k /\
      nth_error (slice_logger_fragments self) k = Some logger_k /\
      attr "id" function_k = Some ident /\
      attr "arg" function_k = Some ("@" ++ id self) /\
      attr "x" prior_k = Some ("@" ++ ident) /\
      attr "idref" logger_k = Some ident.
Proof.
  intros Hc Hs.
  split; [now apply xml_sliced_fragments|].
  split; [now apply xml_slice_function_lines|].
  split; [now apply xml_slice_logger_lines|].
  intros k d Hd.
  assert (Hk : (k < length (distribution self))%nat).
  { apply nth_error_Some. congruence. }
  exists (slice_fragment (id self) (S k) (Distribution_xml d)),
         (slice_function_fragment (id self) (S k)),
         (slice_logger_fragment (id self) (S k)),
         (id self ++ Py.str_int (Z.of_nat (S k))).
  split; [now apply nth_error_sliced_fragments|].
  split; [now apply nth_error_map_seq|].
  split; [now apply nth_error_map_seq|].
  repeat split.
Qed.

(** *** Identifiers do not collide *)

Lemma str_int_inj (z z' : Z) : Py.str_int z = Py.str_int z' -> z = z'.
Proof.
  unfold Py.str_int. intros H.
  apply DecimalZ.to_int_inj.
  assert (Hnn : forall n, Z.to_int n <> Decimal.Pos Decimal.Nil /\
                          Z.to_int n <> Decimal.Neg Decimal.Nil).
  { intros [|p|p]; cbn; split; try discriminate;
      intros [= E]; now apply (DecimalPos.Unsigned.to_uint_nonnil p). }
  apply (f_equal NilZero.int_of_string) in H.
  rewrite !NilZero.isi in H by apply Hnn. congruence.
Qed.

Lemma append_inj_l (a x y : string) : a ++ x = a ++ y -> x = y.
Proof.
  induction a as [|ch a IH]; cbn; [auto | intros [= H]; auto].
Qed.

Lemma map_fst_enumerate_from {A : Type} (l : list A) (s : nat) :
  map fst (Py.enumerate_from (Z.of_nat s) l) = map Z.of_nat (seq s (length l)).
Proof.
  revert s; induction l as [|a l IH]; intros s; cbn; [reflexivity|].
  replace (Z.of_nat s + 1)%Z with (Z.of_nat (S s)) by lia.
  now rewrite IH.
Qed.

Lemma NoDup_map_injective {A B : Type} (f : A -> B) (l : list A) :
  (forall x y, f x = f y -> x = y) -> NoDup l -> NoDup (map f l).
Proof.
  intros Hf Hl. apply NoDup_map_NoDup_ForallPairs; [|exact Hl].
  intros x y _ _. apply Hf.
Qed.

(** X4: identifiers do not collide within one sliced prior.  The slice
    functions are the rendering of elements whose identifiers <id><k> are
    pairwise distinct; and, for every class but SamplingProportionMTBD,
    the prior declaration is the rendering of elements whose identifiers
    <id>Slice<k> are pairwise distinct. *)
Theorem sliced_identifiers_are_distinct self :
  sliced self = true ->
  (xml_slice_function self = render_lines (slice_function_fragments self) /\
   NoDup (map (attr "id") (slice_function_fragments self))) /\
  (class_of self <> SamplingProportionMTBD ->
   xml Distribution_xml self =
     Ok (String.concat "" (map render_fragment (sliced_fragments Distribution_xml self))) /\
   NoDup (map (attr "id") (sliced_fragments Distribution_xml self))).
Proof.
  intros Hs. split; [split | intros Hc; split].
  - now apply xml_slice_function_lines.
  - unfold slice_function_fragments. rewrite map_map. cbn.
    apply NoDup_map_injective; [|apply seq_NoDup].
    intros x y [= H]. apply append_inj_l, str_int_inj in H. lia.
  - now apply xml_sliced_fragments.
  - replace (map (attr "id") (sliced_fragments Distribution_xml self))
      with (map (fun i => Some (id self ++ "Slice" ++ Py.str_int (i + 1)))
                (map fst (Py.enumerate (distribution self))))
      by (unfold sliced_fragments; rewrite !map_map; reflexivity).
    unfold Py.enumerate. change 0%Z with (Z.of_nat 0).
    rewrite map_fst_enumerate_from.
    apply NoDup_map_injective.
    + intros x y [= H]. apply append_inj_l in H.
      apply (append_inj_l "Slice") in H. apply str_int_inj in H. lia.
    + apply NoDup_map_injective; [apply Nat2Z.inj | apply seq_NoDup].
Qed.

End Slices.

(** ** When rendering fails *)

Section Failures.

Context {Distribution : Type}.
Variable Distribution_xml : Distribution -> string.
Variable RealParameter_xml : RealParameter -> result string.

Implicit Types self : Prior Distribution.

(** X5: the prior declaration of an instance fails exactly when its
    distribution is empty and the renderer indexes distribution[0], that
    is, on an unsliced prior or a SamplingProportionMTBD; the error is then
    an IndexError.  A sliced prior of any other class with an empty
    distribution renders as the empty text. *)
Theorem xml_raises_iff self (e : exn) :
  xml Distribution_xml self = Raise e <->
  distribution self = [] /\
  (sliced self = false \/ class_of self = SamplingProportionMTBD) /\
  e = IndexError "list index out of range".
Proof.
  unfold xml, SamplingProportionMTBD_xml, Prior_xml.
  destruct (distribution self) as [|d0 ds], (sliced self) eqn:Hs;
    destruct (class_of self) eqn:Hc; cbn [negb first bind];
    split;
    try discriminate;
    try (intros [= <-]; repeat split; auto; fail);
    try (intros (_ & _ & ->); reflexivity);
    try (intros (H & _); discriminate H);
    try (intros (_ & [H|H] & _); discriminate H).
Qed.

(** X6: the state node fails exactly when initial is empty, with an
    IndexError raised before the parameter adapter is reached, whatever
    the adapter does. *)
Theorem xml_param_raises_iff self :
  (forall e, xml_param_param self = Raise e <->
             initial self = [] /\ e = IndexError "list index out of range") /\
  (initial self = [] ->
   xml_param RealParameter_xml self = Raise (IndexError "list index out of range")).
Proof.
  unfold xml_param, xml_param_param, xml_param_initial. split.
  - intros e. destruct (initial self) as [|x [|y l]]; cbn; split;
      try discriminate.
    + intros [= <-]. auto.
    + intros (_ & ->). reflexivity.
    + intros (H & _). discriminate H.
    + intros (H & _). discriminate H.
  - intros ->. reflexivity.
Qed.

(** X10: among the sliced priors that pass validation, the
    rate-change-times renderer fails exactly on those whose id starts with
    origin: the slicing whitelist and the role table differ by that one
    prefix. *)
Theorem whitelisted_rate_change_times_fail_iff_origin self :
  sliced self = true ->
  Py.startswith_any (id self) sliced_prefixes = true ->
  (exists e, xml_slice_rate_change_times self = Raise e) <->
  Py.startswith (id self) "origin" = true.
Proof.
  intros Hs Hw. split.
  - intros [e He]. revert He Hw.
    unfold xml_slice_rate_change_times, Py.startswith_any, sliced_prefixes.
    rewrite Hs. cbn [negb existsb].
    destruct (Py.startswith (id self) "samplingProportion");
      [discriminate|].
    destruct (Py.startswith (id self) "rho"); [discriminate|].
    destruct (Py.startswith (id self) "reproductiveNumber"); [discriminate|].
    destruct (Py.startswith (id self) "becomeUninfectious"); [discriminate|].
    intros _. now rewrite !orb_false_r.
  - intros Ho. apply origin_not_rate_role in Ho.
    unfold Py.startswith_any, rate_roles in Ho. cbn [existsb] in Ho.
    rewrite !orb_false_iff in Ho. destruct Ho as (Hr & Hsp & Hrn & Hbu & _).
    exists (CritterError rate_change_times_message).
    unfold xml_slice_rate_change_times. rewrite Hs, Hr, Hsp, Hrn, Hbu. reflexivity.
Qed.

End Failures.

(** ** When construction succeeds *)

Section Validation.

Context {Distribution : Type}.
Context {uuid_state : Type}.
Variable get_uuid : bool -> uuid_state -> string * uuid_state.

Implicit Types (kw : kwargs Distribution) (m : module_env) (c : prior_class).

Lemma validate_sliced_id_ok_iff (fields_ : fields Distribution) :
  validate_sliced_id fields_ = Ok fields_ <->
  f_sliced fields_ = false \/
  Py.startswith_any (f_id fields_) sliced_prefixes = true.
Proof.
  unfold validate_sliced_id.
  destruct (f_sliced fields_), (Py.startswith_any (f_id fields_) sliced_prefixes);
    cbn; split; auto; try discriminate; intros [H|H]; discriminate H.
Qed.

(** X7: a constructor call returns an instance exactly when it passes
    distribution and initial and either leaves the prior unsliced or gives
    (or inherits) an id that starts with one of the five slicing prefixes;
    an unsliced prior is accepted under any id. *)
Theorem new_succeeds_iff m c kw :
  (exists p, new m c kw = inr p) <->
  kw_distribution kw <> None /\
  kw_initial kw <> None /\
  (or_default (kw_sliced kw) false = false \/
   Py.startswith_any (or_default (kw_id kw) (default_id m c)) sliced_prefixes = true).
Proof.
  split.
  - intros [p Hp]. apply new_inr in Hp. cbn zeta in Hp.
    destruct Hp as (Hv & Hd & Hi & _).
    apply validate_sliced_id_ok_iff in Hv.
    repeat split; [congruence | congruence | exact Hv].
  - intros (Hd & Hi & Hv).
    destruct (kw_distribution kw) as [d|] eqn:Ed; [|congruence].
    destruct (kw_initial kw) as [i|] eqn:Ei; [|congruence].
    destruct (new_with_required_fields m c kw d i Ed Ei) as (p & Hp & _).
    + now apply validate_sliced_id_ok_iff.
    + now exists p.
Qed.

(** X8: a failed constructor call reports every rule it breaks and nothing
    else: the error list is never empty, it names distribution exactly
    when that argument is missing, initial exactly when that one is, and
    it holds a root error, the TypeError the validator's raise ends in,
    exactly when the prior is sliced under an id outside the whitelist. *)
Theorem new_reports_every_violation m c kw (errs : list error_wrapper) :
  new m c kw = inl errs ->
  errs <> [] /\
  (forall loc, In (Missing loc) errs <->
     (loc = "distribution" /\ kw_distribution kw = None) \/
     (loc = "initial" /\ kw_initial kw = None)) /\
  (forall e, In (RootError e) errs <->
     e = TypeError /\
     or_default (kw_sliced kw) false = true /\
     Py.startswith_any (or_default (kw_id kw) (default_id m c)) sliced_prefixes = false).
Proof.
  unfold new, validate_sliced_id. cbn zeta. cbn [field_values f_distribution f_initial f_sliced f_id].
  destruct (kw_distribution kw) as [d|], (kw_initial kw) as [i|],
    (or_default (kw_sliced kw) false),
    (Py.startswith_any (or_default (kw_id kw) (default_id m c)) sliced_prefixes);
    cbn; intros [= <-]; (split; [discriminate|]); split.
  all: first
    [ intros loc; split;
      [ intros H; cbn in H; repeat (destruct H as [[= <-]|H]);
        try contradiction; auto
      | intros [[-> H]|[-> H]]; try discriminate H; cbn; auto ]
    | intros e; split;
      [ intros H; cbn in H; repeat (destruct H as [[= <-]|H]);
        try contradiction; auto
      | intros (-> & H1 & H2); try discriminate; cbn; auto ] ].
Qed.

Lemma prefix_app (p s : string) : String.prefix p (p ++ s) = true.
Proof.
  induction p as [|a p IH]; cbn.
  - now destruct s.
  - destruct (ascii_dec a a); [exact IH | congruence].
Qed.

(** X11: the validator looks at the start of the id only: any id made of
    a whitelisted prefix followed by an arbitrary suffix is accepted,
    sliced or not. *)
Theorem validate_accepts_any_suffix (fields_ : fields Distribution) (p suffix : string) :
  In p sliced_prefixes ->
  f_id fields_ = p ++ suffix ->
  validate_sliced_id fields_ = Ok fields_.
Proof.
  intros Hin Hid. apply validate_sliced_id_ok_iff. right. rewrite Hid.
  unfold Py.startswith_any. apply existsb_exists. exists p. split; [exact Hin|].
  apply prefix_app.
Qed.

(** X9: with the id each class pins, slicing is available to Origin,
    ReproductiveNumber, SamplingProportion, BecomeUninfectiousRate, Rho and
    SamplingProportionMTBD and to no other class; the base class, whose
    default id is Prior.<uuid>, cannot be sliced without an explicit id. *)
Theorem sliced_with_default_id_iff_sliceable (g : uuid_state) c kw d i :
  kw_id kw = None ->
  kw_sliced kw = Some true ->
  kw_distribution kw = Some d ->
  kw_initial kw = Some i ->
  (exists p, new (fst (import_module get_uuid g)) c kw = inr p) <->
  In c sliceable_classes.
Proof.
  intros Hid Hs Hd Hi.
  assert (Hv : validate_sliced_id (field_values (fst (import_module get_uuid g)) c kw) =
               Ok (field_values (fst (import_module get_uuid g)) c kw) <->
               In c sliceable_classes).
  { rewrite validate_sliced_id_ok_iff. cbn [field_values f_sliced f_id].
    rewrite Hid, Hs. cbn [or_default]. unfold import_module.
    destruct (get_uuid true g) as [u g']. cbn [fst].
    destruct c; cbn; split; intros H; try tauto.
    all: try (now right).
    all: try (destruct H as [H|H]; discriminate H).
    all: try (repeat (destruct H as [H|H]; try discriminate H); contradiction). }
  split.
  - intros [p Hp]. apply new_inr in Hp. apply Hv, Hp.
  - intros Hin. apply Hv in Hin.
    destruct (new_with_required_fields _ c kw d i Hd Hi Hin) as (p & Hp & _).
    now exists p.
Qed.

End Validation.

(** ** The further theorems at concrete priors *)

Lemma sliced_slice_functions_witness :
  sliced Demo.sampling = true /\
  xml_slice_function Demo.sampling =
  String.concat ""
    [render_fragment (slice_function_fragment "samplingProportion" 1) ++ nl;
     render_fragment (slice_function_fragment "samplingProportion" 2) ++ nl].
Proof.
  split; [reflexivity|].
  apply (sliced_slice_functions Demo.sampling). reflexivity.
Defined.

Lemma sliced_slice_loggers_witness :
  sliced Demo.sampling = true /\
  xml_slice_logger Demo.sampling =
  String.concat ""
    [render_fragment (slice_logger_fragment "samplingProportion" 1) ++ nl;
     render_fragment (slice_logger_fragment "samplingProportion" 2) ++ nl].
Proof.
  split; [reflexivity|].
  apply (sliced_slice_loggers Demo.sampling). reflexivity.
Defined.

Lemma sliced_outputs_share_slice_identifiers_witness :
  class_of Demo.sampling <> SamplingProportionMTBD /\
  sliced Demo.sampling = true /\
  xml_slice_function Demo.sampling =
    render_lines [slice_function_fragment "samplingProportion" 1;
                  slice_function_fragment "samplingProportion" 2] /\
  xml_slice_logger Demo.sampling =
    render_lines [slice_logger_fragment "samplingProportion" 1;
                  slice_logger_fragment "samplingProportion" 2] /\
  exists (prior_k function_k logger_k : fragment) (ident : string),
    nth_error (sliced_fragments Demo.Distribution_xml Demo.sampling) 1 = Some prior_k /\
    nth_error (slice_function_fragments Demo.sampling) 1 = Some function_k /\
    nth_error (slice_logger_fragments Demo.sampling) 1 = Some logger_k /\
    attr "id" function_k = Some ident /\
    attr "arg" function_k = Some "@samplingProportion" /\
    attr "x" prior_k = Some ("@" ++ ident) /\
    attr "idref" logger_k = Some ident.
Proof.
  assert (Hc : class_of Demo.sampling <> SamplingProportionMTBD) by discriminate.
  destruct (sliced_outputs_share_slice_identifiers
              Demo.Distribution_xml Demo.sampling Hc eq_refl)
    as (_ & Hf & Hl & Hk).
  split; [exact Hc|]. split; [reflexivity|].
  split; [exact Hf|]. split; [exact Hl|].
  apply (Hk 1%nat "<Exponential/>"). reflexivity.
Defined.

Lemma sliced_identifiers_are_distinct_witness :
  sliced Demo.sampling = true /\
  xml_slice_function Demo.sampling =
    render_lines [slice_function_fragment "samplingProportion" 1;
                  slice_function_fragment "samplingProportion" 2] /\
  NoDup (map (attr "id") (slice_function_fragments Demo.sampling)) /\
  NoDup (map (attr "id") (sliced_fragments Demo.Distribution_xml Demo.sampling)).
Proof.
  destruct (sliced_identifiers_are_distinct
              Demo.Distribution_xml Demo.sampling eq_refl)
    as ((Hf & Hnf) & Hp).
  split; [reflexivity|]. split; [exact Hf|]. split; [exact Hnf|].
  apply Hp. discriminate.
Defined.

Lemma whitelisted_rate_change_times_fail_iff_origin_witness :
  sliced (Demo.prior Origin "origin" ["<Uniform/>"] [Py.Float 1] true []) = true /\
  Py.startswith_any "origin" sliced_prefixes = true /\
  exists e,
    xml_slice_rate_change_times
      (Demo.prior Origin "origin" ["<Uniform/>"] [Py.Float 1] true []) = Raise e.
Proof.
  split; [reflexivity|]. split; [reflexivity|].
  apply (proj2 (whitelisted_rate_change_times_fail_iff_origin
                  (Demo.prior Origin "origin" ["<Uniform/>"] [Py.Float 1] true [])
                  eq_refl eq_refl)).
  reflexivity.
Defined.

Lemma new_reports_every_violation_witness :
  new Demo.env ClockRate (Demo.call None None None (Some true) None) =
    inl [Missing "distribution"; Missing "initial"; RootError TypeError] /\
  In (Missing "initial")
     [Missing "distribution"; Missing "initial"; RootError TypeError].
Proof.
  split; [reflexivity|].
  apply (proj1 (proj2 (new_reports_every_violation Demo.env ClockRate
                         (Demo.call None None None (Some true) None) _ eq_refl))).
  right. split; reflexivity.
Defined.

Lemma validate_accepts_any_suffix_witness :
  In "rho" sliced_prefixes /\
  f_id (Demo.sliced_fields "rhoSerial") = "rho" ++ "Serial" /\
  validate_sliced_id (Demo.sliced_fields "rhoSerial") = Ok (Demo.sliced_fields "rhoSerial").
Proof.
  assert (Hin : In "rho" sliced_prefixes) by (right; left; reflexivity).
  split; [exact Hin|]. split; [reflexivity|].
  apply (validate_accepts_any_suffix (Demo.sliced_fields "rhoSerial") "rho" "Serial" Hin).
  reflexivity.
Defined.

Lemma sliced_with_default_id_iff_sliceable_witness :
  (exists p,
     new (fst (import_module Demo.get_uuid 0%nat)) Rho
         (Demo.call None (Some ["<Beta/>"]) (Some [Py.Float 0.5]) (Some true) None) = inr p) /\
  ~ (exists p,
       new (fst (import_module Demo.get_uuid 0%nat)) PriorBase
           (Demo.call None (Some ["<Beta/>"]) (Some [Py.Float 0.5]) (Some true) None) = inr p).
Proof.
  split.
  - apply (proj2 (sliced_with_default_id_iff_sliceable Demo.get_uuid 0%nat Rho
                    (Demo.call None (Some ["<Beta/>"]) (Some [Py.Float 0.5]) (Some true) None)
                    ["<Beta/>"] [Py.Float 0.5] eq_refl eq_refl eq_refl eq_refl)).
    cbn. tauto.
  - intros H.
    apply (proj1 (sliced_with_default_id_iff_sliceable Demo.get_uuid 0%nat PriorBase
                    (Demo.call None (Some ["<Beta/>"]) (Some [Py.Float 0.5]) (Some true) None)
                    ["<Beta/>"] [Py.Float 0.5] eq_refl eq_refl eq_refl eq_refl)) in H.
    cbn in H. repeat (destruct H as [H|H]; try discriminate H). contradiction.
Defined.
